(** * ble-car: the serial command interpreter of [arduino_car_code.c]

    The sketch keeps two globals, the command buffer [G_Bluetooth_value]
    and the target speed [BLE_Change_SPEED].  Each pass of [loop] drains
    the serial receive queue into the buffer and, when the buffer is not
    empty, interprets it as one frame, drives four output pins and clears
    the buffer.

    The embedding follows the sketch statement by statement.  The Arduino
    core it calls (String, isDigit, digitalWrite, analogWrite, Serial) is
    modelled for the AVR boards the pin numbers of the sketch belong to:
    [int] has 16 bits, [long] has 32 bits, [float] and [double] are both
    IEEE 754 binary32.  [delay] has no effect on the state and is left out,
    and heap exhaustion inside String is not modelled: the buffer grows
    without bound, and the [int] that takes its length wraps from 32768
    characters on. *)

From Stdlib Require Import ZArith Bool Ascii String List Lia.
From Stdlib Require Import Floats.SpecFloat.
From stdpp Require Import base option fin_maps gmap.

Local Open Scope string_scope.
Local Open Scope Z_scope.

(** ** Machine integers of the AVR target *)

Module Avr.

(** Two's complement reduction of [z] to [bits] bits. *)
Definition wrap (bits : Z) (z : Z) : Z :=
  (z + 2 ^ (bits - 1)) mod 2 ^ bits - 2 ^ (bits - 1).

Definition INT_MAX : Z := 32767.
Definition INT_MIN : Z := -32768.

(** Conversion to [int] and to [long]. *)
Definition to_int (z : Z) : Z := wrap 16 z.
Definition to_long (z : Z) : Z := wrap 32 z.

(** Conversion to [unsigned int]. *)
Definition to_uint (z : Z) : Z := z mod 2 ^ 16.

Definition in_int (z : Z) : Prop := INT_MIN <= z <= INT_MAX.

End Avr.

(** ** Characters *)

Definition NUL : ascii := Ascii.zero.

Definition code (c : ascii) : Z := Z.of_N (N_of_ascii c).

(** [isDigit(c)]: one of '0' .. '9'. *)
Definition isDigit (c : ascii) : bool :=
  (48 <=? code c) && (code c <=? 57).

(** [isspace(c)] in the C locale: blank, or one of the controls 9 .. 13. *)
Definition isSpace (c : ascii) : bool :=
  (code c =? 32) || ((9 <=? code c) && (code c <=? 13)).

Definition digit_value (c : ascii) : Z := code c - 48.

(** ** The Arduino String operations the sketch uses *)

Module WString.

(** [String::charAt]: the character at [index], NUL out of range. *)
Definition charAt (s : string) (index : nat) : ascii :=
  match String.get index s with
  | Some c => c
  | None => NUL
  end.

(** A String assigned from a [char*] stops at the first NUL. *)
Fixpoint of_cstr (s : string) : string :=
  match s with
  | EmptyString => EmptyString
  | String c r => if Ascii.eqb c NUL then EmptyString else String c (of_cstr r)
  end.

(** [String::substring(left, right)]: the bounds are swapped when out of
    order, an empty String is returned when [left] is past the end,
    [right] is cut to the length, and the result is assigned from the
    character pointer [buffer + left] with [buffer[right]] zeroed. *)
Definition substring (s : string) (left right : nat) : string :=
  let (l, r) := if (right <? left)%nat then (right, left) else (left, right) in
  if (String.length s <=? l)%nat then EmptyString
  else
    let r := Nat.min r (String.length s) in
    of_cstr (String.substring l (r - l) s).

(** [operator+=(char)]. *)
Definition append_char (s : string) (c : ascii) : string :=
  s ++ String c EmptyString.

(** The digit loop of [atol]: [acc * 10 + digit] in a [long], up to the
    first character that is not a digit. *)
Fixpoint atol_digits (s : string) (acc : Z) : Z :=
  match s with
  | EmptyString => acc
  | String c r =>
      if isDigit c then atol_digits r (Avr.to_long (acc * 10 + digit_value c))
      else acc
  end.

Fixpoint skip_spaces (s : string) : string :=
  match s with
  | EmptyString => EmptyString
  | String c r => if isSpace c then skip_spaces r else s
  end.

(** [atol]: leading white space, an optional sign, then digits. *)
Definition atol (s : string) : Z :=
  match skip_spaces s with
  | String "-"%char r => Avr.to_long (- atol_digits r 0)
  | String "+"%char r => atol_digits r 0
  | t => atol_digits t 0
  end.

(** [String::toInt] returns [atol(buffer)], a [long]. *)
Definition toInt (s : string) : Z := atol s.

End WString.

(** ** binary32 arithmetic *)

Module Float32.

Definition prec : Z := 24.
Definition emax : Z := 128.

Definition float : Type := spec_float.

(** Conversion of an integer, rounding to nearest even. *)
Definition of_Z (z : Z) : float := binary_normalize prec emax z 0 false.

(** The literals of the sketch: 10.0 and 22.5 = 45 * 2^-1. *)
Definition lit_10_0 : float := binary_normalize prec emax 10 0 false.
Definition lit_22_5 : float := binary_normalize prec emax 45 (-1) false.

Definition div : float -> float -> float := SFdiv prec emax.
Definition mul : float -> float -> float := SFmul prec emax.

(** Integer part, rounding toward zero; 0 where there is none. *)
Definition trunc (f : float) : Z :=
  match f with
  | S754_finite s m e =>
      let a := match e with
               | Z0 => Zpos m
               | Zpos p => Zpos m * 2 ^ Zpos p
               | Zneg p => Zpos m / 2 ^ Zpos p
               end in
      if s then - a else a
  | _ => 0
  end.

Definition is_finite (f : float) : bool :=
  match f with
  | S754_zero _ | S754_finite _ _ _ => true
  | _ => false
  end.

End Float32.

(** ** The state of the sketch *)

Inductive level : Set := LOW | HIGH.

(** What a pin was last driven with: a level by [digitalWrite], or the
    [int] handed to [analogWrite]. *)
Inductive pin_out : Set :=
| Digital (v : level)
| Analog (val : Z).

(** What the sketch sent to [Serial]: text by [print], a line by
    [println] of a String, a line by [println] of an [int]. *)
Inductive serial_item : Set :=
| TxText (text : string)
| TxLine (text : string)
| TxIntLine (n : Z).

Record sketch : Type := Sketch {
  G_Bluetooth_value : string;
  BLE_Change_SPEED : Z;
  pins : gmap Z pin_out;
  serial_tx : list serial_item
}.

Definition set_buffer (b : string) (s : sketch) : sketch :=
  Sketch b (BLE_Change_SPEED s) (pins s) (serial_tx s).

Definition set_speed (v : Z) (s : sketch) : sketch :=
  Sketch (G_Bluetooth_value s) v (pins s) (serial_tx s).

Definition digitalWrite (pin : Z) (v : level) (s : sketch) : sketch :=
  Sketch (G_Bluetooth_value s) (BLE_Change_SPEED s)
         (<[pin := Digital v]> (pins s)) (serial_tx s).

Definition analogWrite (pin : Z) (val : Z) (s : sketch) : sketch :=
  Sketch (G_Bluetooth_value s) (BLE_Change_SPEED s)
         (<[pin := Analog val]> (pins s)) (serial_tx s).

Definition serial (item : serial_item) (s : sketch) : sketch :=
  Sketch (G_Bluetooth_value s) (BLE_Change_SPEED s) (pins s)
         (serial_tx s ++ item :: nil).

(** Statements in sequence. *)
Definition seq (f g : sketch -> sketch) : sketch -> sketch := fun s => g (f s).

Declare Scope stmt_scope.
Delimit Scope stmt_scope with stmt.
Notation "f ;; g" := (seq f g)
  (at level 100, g at level 200, right associativity) : stmt_scope.

(** A [float] argument converted to the [int] parameter of [analogWrite]:
    the fraction is dropped.  Outside the range of [int] C leaves the
    conversion undefined; avr-gcc converts through a 32-bit integer and
    keeps the low 16 bits, which is what [Avr.to_int] does. *)
Definition int_of_float (f : Float32.float) : Z := Avr.to_int (Float32.trunc f).

(** ** The sketch *)

(** [setup]: the buffer is emptied and the speed set to 60.  [pinMode] and
    [Serial.begin] drive no pin, so the outputs stay as the hardware [hw]
    had them. *)
Definition setup (hw : gmap Z pin_out) : sketch :=
  Sketch "" 60 hw nil.

(** Lines 16-19: every byte the receive queue holds is appended. *)
Definition read_serial (rx : list ascii) (s : sketch) : sketch :=
  set_buffer (fold_left WString.append_char rx (G_Bluetooth_value s)) s.

(** An [int] passed for an [unsigned int] index. *)
Definition index_of_int (z : Z) : nat := Z.to_nat (Avr.to_uint z).

(** Line 23 and lines 29-37: the new value of [BLE_Change_SPEED] and
    [cmd].  [len] is an [int]: the length converted to 16 bits, negative
    from 32768 characters on. *)
Definition parse_command (buf : string) (speed : Z) : Z * ascii :=
  let len := Avr.to_int (Z.of_nat (String.length buf)) in
  if (2 <? len) && isDigit (WString.charAt buf 1) then
    let numStr := WString.substring buf 1 (index_of_int (len - 1)) in
    (Avr.to_int (WString.toInt numStr), WString.charAt buf (index_of_int (len - 1)))
  else
    (speed, WString.charAt buf 1).

(** Line 40: [(BLE_Change_SPEED / 10.0) * 22.5]. *)
Definition motorSpeed (speed : Z) : Float32.float :=
  Float32.mul (Float32.div (Float32.of_Z speed) Float32.lit_10_0) Float32.lit_22_5.

(** Lines 42-88: the [switch] on [cmd]. *)
Definition switch_cmd (cmd : ascii) (motorSpeed : Float32.float) (s : sketch) : sketch :=
  (if Ascii.eqb cmd "+" then
     serial (TxText "Speed updated to: ") ;;
     serial (TxIntLine (BLE_Change_SPEED s))
   else if Ascii.eqb cmd "-" then
     serial (TxText "Speed updated to: ") ;;
     serial (TxIntLine (BLE_Change_SPEED s))
   else if Ascii.eqb cmd "L" then
     digitalWrite 2 LOW ;;
     analogWrite 5 (int_of_float motorSpeed) ;;
     digitalWrite 4 LOW ;;
     analogWrite 6 (int_of_float motorSpeed)
   else if Ascii.eqb cmd "R" then
     digitalWrite 2 HIGH ;;
     analogWrite 5 (int_of_float motorSpeed) ;;
     digitalWrite 4 HIGH ;;
     analogWrite 6 (int_of_float motorSpeed)
   else if Ascii.eqb cmd "W" then
     digitalWrite 2 HIGH ;;
     analogWrite 5 (int_of_float motorSpeed) ;;
     digitalWrite 4 LOW ;;
     analogWrite 6 (int_of_float motorSpeed)
   else if Ascii.eqb cmd "S" then
     digitalWrite 2 LOW ;;
     analogWrite 5 (int_of_float motorSpeed) ;;
     digitalWrite 4 HIGH ;;
     analogWrite 6 (int_of_float motorSpeed)
   else
     digitalWrite 2 LOW ;;
     analogWrite 5 0 ;;
     digitalWrite 4 HIGH ;;
     analogWrite 6 0)%stmt s.

(** Lines 26-95: the frame in the buffer is interpreted. *)
Definition interpret (s : sketch) : sketch :=
  let buf := G_Bluetooth_value s in
  if Ascii.eqb (WString.charAt buf 0) "%" then
    let (speed, cmd) := parse_command buf (BLE_Change_SPEED s) in
    let s := set_speed speed s in
    let motorSpeed := motorSpeed (BLE_Change_SPEED s) in
    switch_cmd cmd motorSpeed s
  else
    (digitalWrite 2 LOW ;;
     analogWrite 5 0 ;;
     digitalWrite 4 HIGH ;;
     analogWrite 6 0)%stmt s.

(** [loop]: [rx] is what the serial receive queue delivers while the
    [while] of line 16 runs. *)
Definition loop (rx : list ascii) (s : sketch) : sketch :=
  let s := read_serial rx s in
  if (0 <? String.length (G_Bluetooth_value s))%nat then
    (serial (TxLine (G_Bluetooth_value s)) ;;
     interpret ;;
     set_buffer "")%stmt s
  else s.

(** ** The vocabulary of the specification *)

(** The frame awaiting dispatch in a pass of [loop]: the buffer once the
    receive queue has been drained. *)
Definition frame (rx : list ascii) (s : sketch) : string :=
  G_Bluetooth_value (read_serial rx s).

(** A controller between two frames: empty buffer, target speed [speed],
    pins as in [hw], serial log [tx]. *)
Definition idle (speed : Z) (hw : gmap Z pin_out) (tx : list serial_item) : sketch :=
  Sketch "" speed hw tx.

Definition has_sentinel (f : string) : bool :=
  Ascii.eqb (WString.charAt f 0) "%".

(** Speed-bearing shape: sentinel, more than two characters, a decimal
    digit right after the sentinel. *)
Definition speed_bearing (f : string) : bool :=
  has_sentinel f && (2 <? String.length f)%nat && isDigit (WString.charAt f 1).

(** The characters from index 1 up to, not including, the last one. *)
Definition numeric_part (f : string) : string :=
  String.substring 1 (String.length f - 2) f.

Definition last_char (f : string) : ascii :=
  WString.charAt f (String.length f - 1).

(** The action symbol of a frame that starts with the sentinel. *)
Definition action_symbol (f : string) : ascii :=
  snd (parse_command f 0).

Fixpoint all_digits (t : string) : bool :=
  match t with
  | EmptyString => true
  | String c r => isDigit c && all_digits r
  end.

(** Base-10 value, without any bound, of the digits [t] starts with,
    continuing the value [acc] of the digits read so far. *)
Fixpoint decimal_from (t : string) (acc : Z) : Z :=
  match t with
  | EmptyString => acc
  | String c r => if isDigit c then decimal_from r (acc * 10 + digit_value c) else acc
  end.

Definition decimal_value (t : string) : Z := decimal_from t 0.

(** The actuation states of section 4.3 and the symbols selecting them. *)
Inductive action : Set :=
| TurnLeft | TurnRight | Forward | Reverse | Stop | SpeedAck.

Definition action_of (c : ascii) : action :=
  if Ascii.eqb c "+" || Ascii.eqb c "-" then SpeedAck
  else if Ascii.eqb c "L" then TurnLeft
  else if Ascii.eqb c "R" then TurnRight
  else if Ascii.eqb c "W" then Forward
  else if Ascii.eqb c "S" then Reverse
  else Stop.

Definition recognized (c : ascii) : bool :=
  existsb (Ascii.eqb c) ["+"; "-"; "L"; "R"; "W"; "S"]%char.

(** Frames without the sentinel map to the stop action. *)
Definition frame_action (f : string) : action :=
  if has_sentinel f then action_of (action_symbol f) else Stop.

(** The two motor channels: left direction on pin 2 and duty on pin 5,
    right direction on pin 4 and duty on pin 6. *)
Record outputs : Set := Outputs {
  left_dir : option pin_out;
  left_duty : option pin_out;
  right_dir : option pin_out;
  right_duty : option pin_out
}.

Definition outputs_of (s : sketch) : outputs :=
  Outputs (pins s !! 2) (pins s !! 5) (pins s !! 4) (pins s !! 6).

Definition driven (ld : level) (lp : Z) (rd : level) (rp : Z) : outputs :=
  Outputs (Some (Digital ld)) (Some (Analog lp)) (Some (Digital rd)) (Some (Analog rp)).

Definition stop_configuration : outputs := driven LOW 0 HIGH 0.

(** The table of section 4.3, with the pin levels the claim gives. *)
Definition table (a : action) (duty : Z) (old : outputs) : outputs :=
  match a with
  | TurnLeft => driven LOW duty LOW duty
  | TurnRight => driven HIGH duty HIGH duty
  | Forward => driven HIGH duty LOW duty
  | Reverse => driven LOW duty HIGH duty
  | Stop => stop_configuration
  | SpeedAck => old
  end.

(** The duty handed to [analogWrite] at target speed [speed]. *)
Definition duty_of (speed : Z) : Z := int_of_float (motorSpeed speed).

(** Successive passes of [loop], one per batch of received bytes. *)
Definition run (rxs : list (list ascii)) (s : sketch) : sketch :=
  fold_left (fun st rx => loop rx st) rxs s.

(** The four writes of one [case], in the order of the sketch. *)
Definition drive_pins (ld : level) (lp : Z) (rd : level) (rp : Z)
    (hw : gmap Z pin_out) : gmap Z pin_out :=
  <[6 := Analog rp]> (<[4 := Digital rd]> (<[5 := Analog lp]> (<[2 := Digital ld]> hw))).

(** The pin map an actuation state leaves. *)
Definition pins_after (a : action) (duty : Z) (hw : gmap Z pin_out) : gmap Z pin_out :=
  match a with
  | TurnLeft => drive_pins LOW duty LOW duty hw
  | TurnRight => drive_pins HIGH duty HIGH duty hw
  | Forward => drive_pins HIGH duty LOW duty hw
  | Reverse => drive_pins LOW duty HIGH duty hw
  | Stop => drive_pins LOW 0 HIGH 0 hw
  | SpeedAck => hw
  end.

(** What a dispatch adds to the serial log after the echo of the frame. *)
Definition report (a : action) (speed : Z) : list serial_item :=
  match a with
  | SpeedAck => [TxText "Speed updated to: "; TxIntLine speed]
  | _ => []
  end.


(** No pin has been driven yet. *)
Definition undriven : outputs := Outputs None None None None.

(** Lookups in a pin map after a sequence of writes. *)
Ltac pin_lookups :=
  unfold outputs_of, driven, stop_configuration, seq,
    digitalWrite, analogWrite, serial, set_speed, set_buffer; simpl;
  repeat first
    [ rewrite lookup_insert_eq
    | rewrite lookup_insert_ne by (intros ?; discriminate) ];
  try reflexivity.

(** ** Machine integers *)

Lemma wrap_small bits z :
  0 < bits -> - 2 ^ (bits - 1) <= z < 2 ^ (bits - 1) -> Avr.wrap bits z = z.
Proof.
  intros Hb Hz. unfold Avr.wrap.
  assert (H2 : 2 ^ bits = 2 * 2 ^ (bits - 1)).
  { replace bits with (Z.succ (bits - 1)) at 1 by lia.
    rewrite Z.pow_succ_r by lia. reflexivity. }
  rewrite Z.mod_small by lia. lia.
Qed.

Lemma wrap_shift bits z k :
  Avr.wrap bits (z + k * 2 ^ bits) = Avr.wrap bits z.
Proof.
  unfold Avr.wrap.
  replace (z + k * 2 ^ bits + 2 ^ (bits - 1))
    with (z + 2 ^ (bits - 1) + k * 2 ^ bits) by lia.
  rewrite Z_mod_plus_full. reflexivity.
Qed.

Lemma wrap_decompose bits z :
  0 <= bits -> exists k, Avr.wrap bits z = z + k * 2 ^ bits.
Proof.
  intros Hb. exists (- ((z + 2 ^ (bits - 1)) / 2 ^ bits)). unfold Avr.wrap.
  rewrite Zmod_eq_full by (apply Z.pow_nonzero; lia). lia.
Qed.

Lemma to_int_small z : Avr.in_int z -> Avr.to_int z = z.
Proof.
  unfold Avr.in_int, Avr.INT_MIN, Avr.INT_MAX, Avr.to_int. intros Hz.
  apply wrap_small; [lia |]. change (2 ^ (16 - 1)) with 32768. lia.
Qed.

Lemma to_int_range z : Avr.in_int (Avr.to_int z).
Proof.
  unfold Avr.in_int, Avr.INT_MIN, Avr.INT_MAX, Avr.to_int, Avr.wrap.
  change (2 ^ (16 - 1)) with 32768. change (2 ^ 16) with 65536.
  pose proof (Z.mod_pos_bound (z + 32768) 65536). lia.
Qed.

(** A [long] narrowed to [int] keeps the residue modulo 2^16. *)
Lemma to_int_to_long z : Avr.to_int (Avr.to_long z) = Avr.to_int z.
Proof.
  unfold Avr.to_long. destruct (wrap_decompose 32 z) as [k Hk]; [lia |].
  rewrite Hk. unfold Avr.to_int.
  replace (z + k * 2 ^ 32) with (z + (k * 2 ^ 16) * 2 ^ 16) by lia.
  apply wrap_shift.
Qed.

(** One step of the digit loop does not depend on the representative. *)
Lemma to_long_step a d :
  Avr.to_long (Avr.to_long a * 10 + d) = Avr.to_long (a * 10 + d).
Proof.
  unfold Avr.to_long at 2. destruct (wrap_decompose 32 a) as [k Hk]; [lia |].
  rewrite Hk. unfold Avr.to_long.
  replace ((a + k * 2 ^ 32) * 10 + d) with (a * 10 + d + (k * 10) * 2 ^ 32) by lia.
  apply wrap_shift.
Qed.

(** ** The duty in the conventional speed range *)

(** For a Target Speed of 0 .. 100 the product is a finite number and the
    duty lies in 0 .. 225, the range [analogWrite] takes. *)
Lemma duty_conventional_range speed :
  0 <= speed <= 100 ->
  Float32.is_finite (motorSpeed speed) = true /\ 0 <= duty_of speed <= 225.
Proof.
  intros Hs.
  assert (H : forallb (fun z => Float32.is_finite (motorSpeed z)
                                && (0 <=? duty_of z) && (duty_of z <=? 225))
                      (seqZ 0 101) = true)
    by (vm_compute; reflexivity).
  rewrite forallb_forall in H.
  assert (Hin : In speed (seqZ 0 101)) by (apply list_elem_of_In, elem_of_seqZ; lia).
  specialize (H speed Hin).
  apply andb_true_iff in H as [H H2]. apply andb_true_iff in H as [H0 H1].
  apply Z.leb_le in H1. apply Z.leb_le in H2. auto.
Qed.

(** ** Characters and Strings *)

Lemma isDigit_not_NUL c : isDigit c = true -> Ascii.eqb c NUL = false.
Proof.
  intros H. destruct (Ascii.eqb_spec c NUL) as [-> | _]; [| reflexivity].
  vm_compute in H. discriminate.
Qed.

Lemma isDigit_not_space c : isDigit c = true -> isSpace c = false.
Proof.
  unfold isDigit, isSpace. intros H.
  apply andb_true_iff in H as [H1 H2].
  apply Z.leb_le in H1. apply Z.leb_le in H2.
  apply orb_false_iff. split.
  - apply Z.eqb_neq. lia.
  - apply andb_false_iff. right. apply Z.leb_gt. lia.
Qed.

Lemma digit_value_range c : isDigit c = true -> 0 <= digit_value c <= 9.
Proof.
  unfold isDigit, digit_value. intros H.
  apply andb_true_iff in H as [H1 H2].
  apply Z.leb_le in H1. apply Z.leb_le in H2. lia.
Qed.

(** The digit loop computes the unbounded value, reduced to a [long]. *)
Lemma atol_digits_decimal t : forall a,
  WString.atol_digits t (Avr.to_long a) = Avr.to_long (decimal_from t a).
Proof.
  induction t as [| c r IH]; intros a; simpl.
  - reflexivity.
  - destruct (isDigit c); [| reflexivity].
    rewrite to_long_step. apply IH.
Qed.

(** Cutting at the first NUL does not change the digits read. *)
Lemma atol_digits_of_cstr t : forall a,
  WString.atol_digits (WString.of_cstr t) a = WString.atol_digits t a.
Proof.
  induction t as [| c r IH]; intros a; simpl.
  - reflexivity.
  - destruct (Ascii.eqb_spec c NUL) as [-> | Hc]; simpl.
    + reflexivity.
    + destruct (isDigit c); [apply IH | reflexivity].
Qed.

(** On a String that starts with a digit, [atol] is the digit loop. *)
Lemma atol_leading_digit c r :
  isDigit c = true -> WString.atol (String c r) = WString.atol_digits (String c r) 0.
Proof.
  intros Hc. unfold WString.atol. simpl WString.skip_spaces.
  rewrite (isDigit_not_space c Hc).
  destruct (Ascii.eqb_spec c "-") as [-> | Hm]; [vm_compute in Hc; discriminate |].
  destruct (Ascii.eqb_spec c "+") as [-> | Hp]; [vm_compute in Hc; discriminate |].
  destruct c as [[] [] [] [] [] [] [] []]; try reflexivity; congruence.
Qed.

Lemma of_cstr_leading_digit c r :
  isDigit c = true -> WString.of_cstr (String c r) = String c (WString.of_cstr r).
Proof. intros Hc. simpl. rewrite (isDigit_not_NUL c Hc). reflexivity. Qed.

Lemma toInt_leading_digit c r :
  isDigit c = true ->
  WString.toInt (WString.of_cstr (String c r)) = Avr.to_long (decimal_value (String c r)).
Proof.
  intros Hc. unfold WString.toInt.
  rewrite (of_cstr_leading_digit c r Hc), (atol_leading_digit c _ Hc).
  rewrite <- (of_cstr_leading_digit c r Hc), atol_digits_of_cstr.
  change 0 with (Avr.to_long 0) at 1. apply atol_digits_decimal.
Qed.

Lemma substring_numeric f :
  (2 < String.length f)%nat ->
  WString.substring f 1 (String.length f - 1) = WString.of_cstr (numeric_part f).
Proof.
  intros Hlen. unfold WString.substring, numeric_part.
  destruct (Nat.ltb_spec (String.length f - 1) 1) as [H | _]; [lia |].
  destruct (Nat.leb_spec (String.length f) 1) as [H | _]; [lia |].
  rewrite Nat.min_l by lia.
  replace (String.length f - 1 - 1)%nat with (String.length f - 2)%nat by lia.
  reflexivity.
Qed.

Lemma numeric_part_head f :
  (2 < String.length f)%nat ->
  exists r, numeric_part f = String (WString.charAt f 1) r.
Proof.
  destruct f as [| a [| b [| c rest]]]; simpl; try lia.
  intros _. unfold numeric_part. simpl. eauto.
Qed.

(** ** Parsing *)

Lemma parse_command_symbol f sp sp' :
  snd (parse_command f sp) = snd (parse_command f sp').
Proof. unfold parse_command. destruct (_ && _); reflexivity. Qed.

Lemma int_length f :
  Z.of_nat (String.length f) <= Avr.INT_MAX ->
  Avr.to_int (Z.of_nat (String.length f)) = Z.of_nat (String.length f).
Proof.
  intros Hmax. apply to_int_small.
  unfold Avr.in_int, Avr.INT_MIN. lia.
Qed.

Lemma index_of_int_small n :
  (0 < n)%nat -> Z.of_nat n <= Avr.INT_MAX ->
  index_of_int (Z.of_nat n - 1) = (n - 1)%nat.
Proof.
  unfold Avr.INT_MAX, index_of_int, Avr.to_uint. intros Hn Hmax.
  change (2 ^ 16) with 65536. rewrite Z.mod_small by lia. lia.
Qed.

Lemma parse_command_speed_bearing f sp :
  speed_bearing f = true ->
  Z.of_nat (String.length f) <= Avr.INT_MAX ->
  parse_command f sp =
    (Avr.to_int (decimal_value (numeric_part f)), last_char f).
Proof.
  unfold speed_bearing, parse_command. intros H Hmax.
  apply andb_true_iff in H as [H Hd]. apply andb_true_iff in H as [_ Hl].
  apply Nat.ltb_lt in Hl.
  rewrite (int_length f Hmax), Hd.
  rewrite (index_of_int_small (String.length f)) by (lia || exact Hmax).
  destruct (Z.ltb_spec 2 (Z.of_nat (String.length f))) as [_ | Hle]; [| lia].
  simpl. unfold last_char. f_equal.
  rewrite (substring_numeric f Hl).
  destruct (numeric_part_head f Hl) as [r ->].
  rewrite (toInt_leading_digit _ r Hd). apply to_int_to_long.
Qed.

Lemma parse_command_bare f sp :
  has_sentinel f = true -> speed_bearing f = false ->
  parse_command f sp = (sp, WString.charAt f 1).
Proof.
  unfold speed_bearing, parse_command. intros -> H. simpl in H.
  apply andb_false_iff in H as [Hl | Hd].
  - apply Nat.ltb_ge in Hl.
    rewrite int_length by (unfold Avr.INT_MAX; lia).
    destruct (Z.ltb_spec 2 (Z.of_nat (String.length f))) as [Hlt | _]; [lia |].
    reflexivity.
  - rewrite Hd, andb_false_r. reflexivity.
Qed.

(** Either the speed is parsed, whatever it was before, or the frame is
    dispatched on the character at index 1. *)
Lemma parse_command_cases f :
  (forall sp sp', fst (parse_command f sp) = fst (parse_command f sp')) \/
  (forall sp, parse_command f sp = (sp, WString.charAt f 1)).
Proof.
  unfold parse_command. destruct (_ && _); [left | right]; reflexivity.
Qed.

(** ** One pass of [loop] *)

Lemma append_cons c (b t : string) : String c b ++ t = String c (b ++ t).
Proof. reflexivity. Qed.

Lemma append_empty_r (b : string) : b ++ "" = b.
Proof.
  induction b as [| c b IH]; [reflexivity |].
  rewrite append_cons, IH. reflexivity.
Qed.

Lemma append_char_assoc (b : string) c t :
  WString.append_char b c ++ t = b ++ String c t.
Proof.
  unfold WString.append_char.
  induction b as [| a b IH]; [reflexivity |].
  rewrite !append_cons, IH. reflexivity.
Qed.

Lemma read_serial_buffer rx : forall b,
  fold_left WString.append_char rx b = b ++ string_of_list_ascii rx.
Proof.
  induction rx as [| c rx IH]; intros b; simpl.
  - symmetry. apply append_empty_r.
  - rewrite IH. apply append_char_assoc.
Qed.

Lemma frame_idle rx speed hw tx :
  frame rx (idle speed hw tx) = string_of_list_ascii rx.
Proof. unfold frame, read_serial, idle. simpl. apply read_serial_buffer. Qed.

Lemma nonempty_length (f : string) :
  f <> "" -> (0 <? String.length f)%nat = true.
Proof. destruct f; [congruence | reflexivity]. Qed.

Lemma loop_buffer rx s : G_Bluetooth_value (loop rx s) = "".
Proof.
  unfold loop. destruct (Nat.ltb_spec 0 (String.length (G_Bluetooth_value (read_serial rx s)))) as [H | H].
  - reflexivity.
  - destruct (G_Bluetooth_value (read_serial rx s)); [reflexivity | simpl in H; lia].
Qed.

Lemma has_sentinel_nonempty f : has_sentinel f = true -> f <> "".
Proof. intros H ->. vm_compute in H. discriminate. Qed.

Lemma switch_cmd_speed cmd m s :
  BLE_Change_SPEED (switch_cmd cmd m s) = BLE_Change_SPEED s.
Proof.
  unfold switch_cmd.
  repeat (match goal with |- context [if ?b then _ else _] => destruct b end);
    reflexivity.
Qed.

Lemma loop_speed rx s :
  BLE_Change_SPEED (loop rx s) =
    if has_sentinel (frame rx s)
    then fst (parse_command (frame rx s) (BLE_Change_SPEED s))
    else BLE_Change_SPEED s.
Proof.
  unfold loop, frame.
  set (s1 := read_serial rx s).
  change (BLE_Change_SPEED s) with (BLE_Change_SPEED s1).
  destruct (Nat.ltb_spec 0 (String.length (G_Bluetooth_value s1))) as [H | H].
  - unfold seq, interpret, has_sentinel. simpl.
    destruct (Ascii.eqb _ "%"); [| reflexivity].
    destruct (parse_command _ _) as [speed cmd]. simpl.
    apply switch_cmd_speed.
  - destruct (G_Bluetooth_value s1); [reflexivity | simpl in H; lia].
Qed.

Lemma switch_cmd_outputs cmd m s :
  outputs_of (switch_cmd cmd m s) =
    table (action_of cmd) (int_of_float m) (outputs_of s).
Proof.
  unfold switch_cmd, action_of.
  destruct (Ascii.eqb cmd "+"); [pin_lookups |].
  destruct (Ascii.eqb cmd "-"); [pin_lookups |]. simpl orb. cbv iota.
  destruct (Ascii.eqb cmd "L"); [pin_lookups |].
  destruct (Ascii.eqb cmd "R"); [pin_lookups |].
  destruct (Ascii.eqb cmd "W"); [pin_lookups |].
  destruct (Ascii.eqb cmd "S"); pin_lookups.
Qed.

Lemma loop_outputs rx s :
  frame rx s <> "" ->
  outputs_of (loop rx s) =
    table (frame_action (frame rx s))
          (duty_of (BLE_Change_SPEED (loop rx s))) (outputs_of s).
Proof.
  intros Hne. rewrite loop_speed. unfold loop, frame_action, action_symbol.
  unfold frame in *. set (s1 := read_serial rx s) in *.
  change (BLE_Change_SPEED s) with (BLE_Change_SPEED s1).
  change (outputs_of s) with (outputs_of s1).
  rewrite (nonempty_length _ Hne).
  unfold seq at 1 2. unfold interpret, has_sentinel. simpl G_Bluetooth_value.
  destruct (Ascii.eqb _ "%").
  - rewrite (parse_command_symbol _ 0 (BLE_Change_SPEED s1)).
    simpl BLE_Change_SPEED.
    destruct (parse_command _ _) as [speed cmd]. simpl.
    change (outputs_of (set_buffer "" ?x)) with (outputs_of x).
    rewrite switch_cmd_outputs. reflexivity.
  - pin_lookups.
Qed.

Lemma frame_empty_buffer rx s :
  G_Bluetooth_value s = "" -> frame rx s = string_of_list_ascii rx.
Proof.
  intros Hb. unfold frame, read_serial. simpl. rewrite Hb.
  apply read_serial_buffer.
Qed.

Lemma loop_no_frame rx s : frame rx s = "" -> loop rx s = read_serial rx s.
Proof. unfold frame, loop. intros ->. reflexivity. Qed.

Lemma parse_command_speed_again f sp :
  fst (parse_command f (fst (parse_command f sp))) = fst (parse_command f sp).
Proof. unfold parse_command. destruct (_ && _); reflexivity. Qed.

Lemma table_again a d o : table a d (table a d o) = table a d o.
Proof. destruct a; reflexivity. Qed.

Lemma action_of_unrecognized c : recognized c = false -> action_of c = Stop.
Proof.
  unfold recognized, action_of. simpl existsb.
  destruct (Ascii.eqb c "+"); [discriminate |].
  destruct (Ascii.eqb c "-"); [discriminate |].
  destruct (Ascii.eqb c "L"); [discriminate |].
  destruct (Ascii.eqb c "R"); [discriminate |].
  destruct (Ascii.eqb c "W"); [discriminate |].
  destruct (Ascii.eqb c "S"); [discriminate | reflexivity].
Qed.

Lemma decimal_from_nonneg t : forall a, 0 <= a -> 0 <= decimal_from t a.
Proof.
  induction t as [| c r IH]; intros a Ha; simpl; [exact Ha |].
  destruct (isDigit c) eqn:Hc; [| exact Ha].
  apply IH. pose proof (digit_value_range c Hc). lia.
Qed.

Lemma loop_speed_bearing rx s :
  speed_bearing (frame rx s) = true ->
  Z.of_nat (String.length (frame rx s)) <= Avr.INT_MAX ->
  BLE_Change_SPEED (loop rx s) =
    Avr.to_int (decimal_value (numeric_part (frame rx s))).
Proof.
  intros Hsb Hmax. rewrite loop_speed.
  rewrite (parse_command_speed_bearing _ _ Hsb Hmax).
  unfold speed_bearing in Hsb.
  apply andb_true_iff in Hsb as [Hsb _]. apply andb_true_iff in Hsb as [-> _].
  reflexivity.
Qed.

Lemma speed_bearing_sentinel f : speed_bearing f = true -> has_sentinel f = true.
Proof.
  unfold speed_bearing. intros H.
  apply andb_true_iff in H as [H _]. apply andb_true_iff in H as [H _]. exact H.
Qed.

Lemma speed_bearing_symbol f :
  speed_bearing f = true ->
  Z.of_nat (String.length f) <= Avr.INT_MAX ->
  action_symbol f = last_char f.
Proof.
  intros H Hmax. unfold action_symbol.
  rewrite (parse_command_speed_bearing f 0 H Hmax). reflexivity.
Qed.

Lemma run_idle rxs : forall s,
  G_Bluetooth_value s = "" ->
  Forall (fun rx => speed_bearing (string_of_list_ascii rx) = false) rxs ->
  G_Bluetooth_value (run rxs s) = "" /\
  BLE_Change_SPEED (run rxs s) = BLE_Change_SPEED s.
Proof.
  induction rxs as [| rx rxs IH]; intros s Hb Hall; simpl.
  - split; [exact Hb | reflexivity].
  - inversion Hall as [| ? ? Hrx Hrest]; subst.
    destruct (IH (loop rx s) (loop_buffer rx s) Hrest) as [Hb' Hs'].
    split; [exact Hb' |]. rewrite Hs', loop_speed.
    rewrite (frame_empty_buffer rx s Hb).
    destruct (has_sentinel _) eqn:Hsent; [| reflexivity].
    rewrite (parse_command_bare _ _ Hsent Hrx). reflexivity.
Qed.

(** ** The frame interpreter *)

(** C1, as amended.  For every frame of speed-bearing shape of at most
    32767 characters, dispatch stores as the new Target Speed the base-10
    value of the digits that the part between index 1 and the last
    character starts with, reduced to the 16 bits of an [int], and takes
    the final character as the action symbol.  When that value is at most
    [INT_MAX], the Target Speed is the value itself and is not negative. *)
Theorem speed_bearing_dispatch rx s :
  speed_bearing (frame rx s) = true ->
  Z.of_nat (String.length (frame rx s)) <= Avr.INT_MAX ->
  BLE_Change_SPEED (loop rx s) =
    Avr.to_int (decimal_value (numeric_part (frame rx s))) /\
  action_symbol (frame rx s) = last_char (frame rx s) /\
  (decimal_value (numeric_part (frame rx s)) <= Avr.INT_MAX ->
   BLE_Change_SPEED (loop rx s) = decimal_value (numeric_part (frame rx s)) /\
   0 <= BLE_Change_SPEED (loop rx s)).
Proof.
  intros Hsb Hlen. rewrite (loop_speed_bearing rx s Hsb Hlen).
  split; [reflexivity |]. split; [apply speed_bearing_symbol; assumption |].
  intros Hmax.
  pose proof (decimal_from_nonneg (numeric_part (frame rx s)) 0 (Z.le_refl 0)) as Hpos.
  fold (decimal_value (numeric_part (frame rx s))) in Hpos.
  rewrite to_int_small; [split; [reflexivity | exact Hpos] |].
  unfold Avr.in_int, Avr.INT_MIN. split; [lia | exact Hmax].
Qed.

Lemma speed_bearing_dispatch_witness :
  speed_bearing (frame (list_ascii_of_string "%75W") (setup ∅)) = true /\
  Z.of_nat (String.length (frame (list_ascii_of_string "%75W") (setup ∅))) <= Avr.INT_MAX /\
  BLE_Change_SPEED (loop (list_ascii_of_string "%75W") (setup ∅)) = 75 /\
  action_symbol (frame (list_ascii_of_string "%75W") (setup ∅)) = "W"%char.
Proof.
  assert (Hsb : speed_bearing (frame (list_ascii_of_string "%75W") (setup ∅)) = true)
    by (vm_compute; reflexivity).
  assert (Hlen : Z.of_nat (String.length (frame (list_ascii_of_string "%75W") (setup ∅)))
                 <= Avr.INT_MAX)
    by (vm_compute; discriminate).
  destruct (speed_bearing_dispatch (list_ascii_of_string "%75W") (setup ∅) Hsb Hlen)
    as (_ & Hsym & Hval).
  split; [exact Hsb |]. split; [exact Hlen |]. split.
  - destruct Hval as [Hval _]; [vm_compute; discriminate |].
    rewrite Hval. vm_compute. reflexivity.
  - rewrite Hsym. vm_compute. reflexivity.
Defined.

(** C1 as stated fails: the eleven digits of this frame are a base-10
    numeral, yet the Target Speed stored is not its value, and is
    negative. *)
Lemma speed_bearing_overflow :
  speed_bearing (frame (list_ascii_of_string "%99999999999W") (setup ∅)) = true /\
  all_digits (numeric_part (frame (list_ascii_of_string "%99999999999W") (setup ∅))) = true /\
  decimal_value (numeric_part (frame (list_ascii_of_string "%99999999999W") (setup ∅)))
    = 99999999999 /\
  BLE_Change_SPEED (loop (list_ascii_of_string "%99999999999W") (setup ∅)) = -6145 /\
  ~ (BLE_Change_SPEED (loop (list_ascii_of_string "%99999999999W") (setup ∅)) =
       decimal_value (numeric_part (frame (list_ascii_of_string "%99999999999W") (setup ∅))) /\
     0 <= BLE_Change_SPEED (loop (list_ascii_of_string "%99999999999W") (setup ∅))).
Proof.
  repeat split; try (vm_compute; reflexivity).
  intros [H _]. vm_compute in H. discriminate.
Qed.

(** C2.  For every dispatched frame the channel outputs follow the table:
    with the sentinel, 'L' gives LOW / LOW, 'R' HIGH / HIGH, 'W' HIGH / LOW
    and 'S' LOW / HIGH, each with both duties at the computed duty; '+' and
    '-' leave the outputs as they were; any other symbol, and any frame
    without the sentinel, gives LOW / HIGH with both duties 0. *)
Theorem motor_table rx s :
  frame rx s <> "" ->
  let f := frame rx s in
  let sym := action_symbol f in
  let duty := duty_of (BLE_Change_SPEED (loop rx s)) in
  let out := outputs_of (loop rx s) in
  (has_sentinel f = true ->
     (sym = "L"%char -> out = driven LOW duty LOW duty) /\
     (sym = "R"%char -> out = driven HIGH duty HIGH duty) /\
     (sym = "W"%char -> out = driven HIGH duty LOW duty) /\
     (sym = "S"%char -> out = driven LOW duty HIGH duty) /\
     (sym = "+"%char \/ sym = "-"%char -> out = outputs_of s) /\
     (recognized sym = false -> out = driven LOW 0 HIGH 0)) /\
  (has_sentinel f = false -> out = driven LOW 0 HIGH 0).
Proof.
  intros Hne f sym duty out.
  assert (Hout : out = table (frame_action f) duty (outputs_of s))
    by (apply loop_outputs, Hne).
  unfold frame_action in Hout. fold sym in Hout.
  split.
  - intros Hsent. rewrite Hsent in Hout.
    repeat split; try (intros Hs; rewrite Hs in Hout; exact Hout).
    + intros [Hs | Hs]; rewrite Hs in Hout; exact Hout.
    + intros Hs. rewrite (action_of_unrecognized sym Hs) in Hout. exact Hout.
  - intros Hsent. rewrite Hsent in Hout. exact Hout.
Qed.

Lemma motor_table_witness :
  frame (list_ascii_of_string "%50L") (setup ∅) <> "" /\
  outputs_of (loop (list_ascii_of_string "%50L") (setup ∅)) = driven LOW 112 LOW 112.
Proof.
  assert (Hne : frame (list_ascii_of_string "%50L") (setup ∅) <> "")
    by (vm_compute; discriminate).
  split; [exact Hne |].
  destruct (motor_table (list_ascii_of_string "%50L") (setup ∅) Hne) as [Hs _].
  destruct Hs as (HL & _); [vm_compute; reflexivity |].
  rewrite HL; [| vm_compute; reflexivity].
  vm_compute. reflexivity.
Defined.

Lemma not_speed_bearing f :
  (String.length f <= 2)%nat \/ isDigit (WString.charAt f 1) = false ->
  speed_bearing f = false.
Proof.
  unfold speed_bearing. intros [Hlen | Hd].
  - destruct (Nat.ltb_spec 2 (String.length f)) as [H | _]; [lia |].
    rewrite andb_false_r. reflexivity.
  - rewrite Hd. apply andb_false_r.
Qed.

Lemma loop_bare rx s :
  has_sentinel (frame rx s) = true -> speed_bearing (frame rx s) = false ->
  BLE_Change_SPEED (loop rx s) = BLE_Change_SPEED s.
Proof.
  intros Hsent Hsb. rewrite loop_speed, Hsent.
  rewrite (parse_command_bare _ _ Hsent Hsb). reflexivity.
Qed.

(** C3, as amended.  For every dispatched frame that starts with the
    sentinel and whose action symbol is 'L', 'R', 'W' or 'S', the value
    written to both duty pins is (TargetSpeed / 10.0) * 22.5, computed in
    binary32 and converted to [int] with the fraction dropped, where
    TargetSpeed is the value after this frame's parsing step: the stored
    one for a bare frame, the parsed one for a speed-bearing frame of at
    most 32767 characters.  For the other action symbols the product is
    not written: an unrecognized symbol writes duty 0, and '+' and '-'
    leave the duties as they were. *)
Theorem duty_formula rx s :
  has_sentinel (frame rx s) = true ->
  let speed := BLE_Change_SPEED (loop rx s) in
  let duty :=
    int_of_float
      (Float32.mul (Float32.div (Float32.of_Z speed) Float32.lit_10_0)
                   Float32.lit_22_5) in
  (In (action_symbol (frame rx s)) ["L"; "R"; "W"; "S"]%char ->
   left_duty (outputs_of (loop rx s)) = Some (Analog duty) /\
   right_duty (outputs_of (loop rx s)) = Some (Analog duty)) /\
  (recognized (action_symbol (frame rx s)) = false ->
   left_duty (outputs_of (loop rx s)) = Some (Analog 0) /\
   right_duty (outputs_of (loop rx s)) = Some (Analog 0)) /\
  (action_symbol (frame rx s) = "+"%char \/ action_symbol (frame rx s) = "-"%char ->
   left_duty (outputs_of (loop rx s)) = left_duty (outputs_of s) /\
   right_duty (outputs_of (loop rx s)) = right_duty (outputs_of s)) /\
  (speed_bearing (frame rx s) = false -> speed = BLE_Change_SPEED s) /\
  (speed_bearing (frame rx s) = true ->
   Z.of_nat (String.length (frame rx s)) <= Avr.INT_MAX ->
   speed = Avr.to_int (decimal_value (numeric_part (frame rx s)))).
Proof.
  intros Hsent speed duty.
  pose proof (loop_outputs rx s (has_sentinel_nonempty _ Hsent)) as Hout.
  unfold frame_action in Hout. rewrite Hsent in Hout.
  split; [| split; [| split; [| split]]].
  - intros Hsym. rewrite Hout. simpl in Hsym.
    destruct Hsym as [<- | [<- | [<- | [<- | []]]]]; split; reflexivity.
  - intros Hrec. rewrite Hout, (action_of_unrecognized _ Hrec). split; reflexivity.
  - intros [Hsym | Hsym]; rewrite Hout, Hsym; split; reflexivity.
  - intros Hsb. apply loop_bare; assumption.
  - intros Hsb Hlen. apply loop_speed_bearing; assumption.
Qed.

Lemma duty_formula_witness :
  has_sentinel (frame (list_ascii_of_string "%80R") (setup ∅)) = true /\
  BLE_Change_SPEED (loop (list_ascii_of_string "%80R") (setup ∅)) = 80 /\
  left_duty (outputs_of (loop (list_ascii_of_string "%80R") (setup ∅)))
    = Some (Analog 180) /\
  right_duty (outputs_of (loop (list_ascii_of_string "%80R") (setup ∅)))
    = Some (Analog 180).
Proof.
  assert (Hsent : has_sentinel (frame (list_ascii_of_string "%80R") (setup ∅)) = true)
    by (vm_compute; reflexivity).
  destruct (duty_formula (list_ascii_of_string "%80R") (setup ∅) Hsent)
    as (Hmotion & _ & _ & _ & Hspeed).
  destruct Hmotion as [Hl Hr]; [vm_compute; tauto |].
  split; [exact Hsent |]. split; [| split].
  - rewrite Hspeed; vm_compute; [reflexivity | reflexivity | discriminate].
  - rewrite Hl. vm_compute. reflexivity.
  - rewrite Hr. vm_compute. reflexivity.
Defined.

(** C3 as stated fails.  The frame "%X" starts with the sentinel and is
    dispatched at Target Speed 60, for which the formula gives 135, yet
    both duty pins are written 0.  The frame "%50L" is driven at duty 112
    where the formula gives 112.5 = 225 * 2^-1, which no [int] equals. *)
Lemma duty_not_formula :
  (has_sentinel (frame (list_ascii_of_string "%X") (setup ∅)) = true /\
   BLE_Change_SPEED (loop (list_ascii_of_string "%X") (setup ∅)) = 60 /\
   motorSpeed 60 = Float32.of_Z 135 /\
   left_duty (outputs_of (loop (list_ascii_of_string "%X") (setup ∅))) = Some (Analog 0) /\
   right_duty (outputs_of (loop (list_ascii_of_string "%X") (setup ∅))) = Some (Analog 0)) /\
  (has_sentinel (frame (list_ascii_of_string "%50L") (setup ∅)) = true /\
   BLE_Change_SPEED (loop (list_ascii_of_string "%50L") (setup ∅)) = 50 /\
   motorSpeed 50 = binary_normalize Float32.prec Float32.emax 225 (-1) false /\
   left_duty (outputs_of (loop (list_ascii_of_string "%50L") (setup ∅))) = Some (Analog 112) /\
   Float32.of_Z 112 <> motorSpeed 50).
Proof.
  split; repeat split; try (vm_compute; reflexivity).
  vm_compute. discriminate.
Qed.

(** C4.  For every frame that starts with the sentinel and is not
    speed-bearing (at most two characters, or no decimal digit at index 1)
    the action symbol is the character at index 1 and the Target Speed
    keeps its previous value. *)
Theorem bare_command rx s :
  has_sentinel (frame rx s) = true ->
  (String.length (frame rx s) <= 2)%nat \/
    isDigit (WString.charAt (frame rx s) 1) = false ->
  action_symbol (frame rx s) = WString.charAt (frame rx s) 1 /\
  BLE_Change_SPEED (loop rx s) = BLE_Change_SPEED s.
Proof.
  intros Hsent Hshape.
  pose proof (not_speed_bearing _ Hshape) as Hsb. split.
  - unfold action_symbol. rewrite (parse_command_bare _ 0 Hsent Hsb). reflexivity.
  - apply loop_bare; assumption.
Qed.

Lemma bare_command_witness :
  has_sentinel (frame (list_ascii_of_string "%X") (idle 42 ∅ [])) = true /\
  ((String.length (frame (list_ascii_of_string "%X") (idle 42 ∅ [])) <= 2)%nat \/
   isDigit (WString.charAt (frame (list_ascii_of_string "%X") (idle 42 ∅ [])) 1) = false) /\
  action_symbol (frame (list_ascii_of_string "%X") (idle 42 ∅ [])) = "X"%char /\
  BLE_Change_SPEED (loop (list_ascii_of_string "%X") (idle 42 ∅ [])) = 42.
Proof.
  assert (Hsent : has_sentinel (frame (list_ascii_of_string "%X") (idle 42 ∅ [])) = true)
    by (vm_compute; reflexivity).
  assert (Hshape : (String.length (frame (list_ascii_of_string "%X") (idle 42 ∅ [])) <= 2)%nat \/
     isDigit (WString.charAt (frame (list_ascii_of_string "%X") (idle 42 ∅ [])) 1) = false)
    by (right; vm_compute; reflexivity).
  destruct (bare_command (list_ascii_of_string "%X") (idle 42 ∅ []) Hsent Hshape)
    as [Hsym Hspeed].
  split; [exact Hsent |]. split; [exact Hshape |]. split.
  - rewrite Hsym. vm_compute. reflexivity.
  - rewrite Hspeed. reflexivity.
Defined.

Lemma loop_table rx s :
  has_sentinel (frame rx s) = true ->
  outputs_of (loop rx s) =
    table (action_of (action_symbol (frame rx s)))
          (duty_of (BLE_Change_SPEED (loop rx s))) (outputs_of s).
Proof.
  intros Hsent. rewrite (loop_outputs rx s (has_sentinel_nonempty _ Hsent)).
  unfold frame_action. rewrite Hsent. reflexivity.
Qed.

Lemma loop_unrecognized rx s :
  has_sentinel (frame rx s) = true ->
  recognized (action_symbol (frame rx s)) = false ->
  outputs_of (loop rx s) = stop_configuration.
Proof.
  intros Hsent Hrec. rewrite (loop_table rx s Hsent).
  rewrite (action_of_unrecognized _ Hrec). reflexivity.
Qed.

(** C5, as amended.  For every frame of speed-bearing shape of at most
    32767 characters whose numeric part contains a character that is not a
    digit, dispatch returns: the Target Speed becomes the value of the
    digits before the first such character (reduced to an [int]) and the
    motors follow the final character of the frame as for any other frame.
    The stop configuration results when that character is not a recognized
    action symbol. *)
Theorem malformed_number_dispatch rx s :
  speed_bearing (frame rx s) = true ->
  Z.of_nat (String.length (frame rx s)) <= Avr.INT_MAX ->
  all_digits (numeric_part (frame rx s)) = false ->
  BLE_Change_SPEED (loop rx s) =
    Avr.to_int (decimal_value (numeric_part (frame rx s))) /\
  outputs_of (loop rx s) =
    table (action_of (last_char (frame rx s)))
          (duty_of (BLE_Change_SPEED (loop rx s))) (outputs_of s) /\
  (recognized (last_char (frame rx s)) = false ->
   outputs_of (loop rx s) = stop_configuration) /\
  G_Bluetooth_value (loop rx s) = "".
Proof.
  intros Hsb Hlen _.
  pose proof (speed_bearing_sentinel _ Hsb) as Hsent.
  rewrite <- (speed_bearing_symbol _ Hsb Hlen).
  split; [apply loop_speed_bearing; assumption |].
  split; [apply loop_table, Hsent |].
  split; [apply loop_unrecognized, Hsent | apply loop_buffer].
Qed.

Lemma malformed_number_dispatch_witness :
  speed_bearing (frame (list_ascii_of_string "%7x9Q") (setup ∅)) = true /\
  Z.of_nat (String.length (frame (list_ascii_of_string "%7x9Q") (setup ∅))) <= Avr.INT_MAX /\
  all_digits (numeric_part (frame (list_ascii_of_string "%7x9Q") (setup ∅))) = false /\
  BLE_Change_SPEED (loop (list_ascii_of_string "%7x9Q") (setup ∅)) = 7 /\
  outputs_of (loop (list_ascii_of_string "%7x9Q") (setup ∅)) = stop_configuration.
Proof.
  assert (Hsb : speed_bearing (frame (list_ascii_of_string "%7x9Q") (setup ∅)) = true)
    by (vm_compute; reflexivity).
  assert (Hlen : Z.of_nat (String.length (frame (list_ascii_of_string "%7x9Q") (setup ∅)))
                 <= Avr.INT_MAX)
    by (vm_compute; discriminate).
  assert (Hbad : all_digits (numeric_part (frame (list_ascii_of_string "%7x9Q") (setup ∅))) = false)
    by (vm_compute; reflexivity).
  destruct (malformed_number_dispatch (list_ascii_of_string "%7x9Q") (setup ∅) Hsb Hlen Hbad)
    as (Hspeed & _ & Hstop & _).
  split; [exact Hsb |]. split; [exact Hlen |]. split; [exact Hbad |]. split.
  - rewrite Hspeed. vm_compute. reflexivity.
  - apply Hstop. vm_compute. reflexivity.
Defined.

(** C5 as stated fails: the numeric part of this frame holds an 'x', and
    the motors are driven forward at duty 11 instead of being stopped. *)
Lemma malformed_number_drives :
  speed_bearing (frame (list_ascii_of_string "%5xW") (setup ∅)) = true /\
  all_digits (numeric_part (frame (list_ascii_of_string "%5xW") (setup ∅))) = false /\
  outputs_of (loop (list_ascii_of_string "%5xW") (setup ∅)) = driven HIGH 11 LOW 11 /\
  outputs_of (loop (list_ascii_of_string "%5xW") (setup ∅)) <> stop_configuration.
Proof.
  repeat split; try (vm_compute; reflexivity).
  vm_compute. discriminate.
Qed.

(** C6.  For every frame and every controller between frames, whatever its
    Target Speed and pin outputs, dispatching the frame twice in a row
    leaves the same channel outputs after the second dispatch as after
    the first. *)
Theorem dispatch_twice rx speed hw tx :
  outputs_of (loop rx (loop rx (idle speed hw tx))) =
  outputs_of (loop rx (idle speed hw tx)).
Proof.
  set (s0 := idle speed hw tx). set (s1 := loop rx s0).
  assert (Hf0 : frame rx s0 = string_of_list_ascii rx) by apply frame_idle.
  assert (Hf1 : frame rx s1 = string_of_list_ascii rx)
    by (apply frame_empty_buffer, loop_buffer).
  destruct (String.string_dec (string_of_list_ascii rx) "") as [Hemp | Hne].
  - rewrite (loop_no_frame rx s1) by congruence. reflexivity.
  - assert (Hspeed : BLE_Change_SPEED (loop rx s1) = BLE_Change_SPEED s1).
    { pose proof (loop_speed rx s0) as H1. rewrite Hf0 in H1. fold s1 in H1.
      rewrite (loop_speed rx s1), Hf1.
      destruct (has_sentinel _); [| reflexivity].
      rewrite H1. apply parse_command_speed_again. }
    pose proof (loop_outputs rx s0) as H0. rewrite Hf0 in H0. fold s1 in H0.
    rewrite (loop_outputs rx s1) by congruence.
    rewrite Hspeed, Hf1, (H0 Hne). apply table_again.
Qed.

(** C7.  After every pass of [loop] the Command Buffer is empty: a pass
    that finds it non-empty after draining the receive queue dispatches
    the frame and clears it, with or without the sentinel and whatever the
    action symbol, and a pass that finds it empty leaves it so. *)
Theorem buffer_cleared rx s : G_Bluetooth_value (loop rx s) = "".
Proof. apply loop_buffer. Qed.




(** C9.  Dispatching the one-character frame "%" returns: index 1 is out
    of range, [charAt] yields NUL, which is no recognized action, so the
    motors are set to the stop configuration and the Target Speed is
    unchanged. *)
Theorem lone_sentinel speed hw tx :
  WString.charAt "%" 1 = NUL /\
  action_symbol (frame ["%"%char] (idle speed hw tx)) = NUL /\
  recognized NUL = false /\
  outputs_of (loop ["%"%char] (idle speed hw tx)) = stop_configuration /\
  BLE_Change_SPEED (loop ["%"%char] (idle speed hw tx)) = speed /\
  G_Bluetooth_value (loop ["%"%char] (idle speed hw tx)) = "".
Proof.
  assert (Hf : frame ["%"%char] (idle speed hw tx) = "%") by apply frame_idle.
  assert (Hsent : has_sentinel (frame ["%"%char] (idle speed hw tx)) = true)
    by (rewrite Hf; reflexivity).
  split; [reflexivity |]. split; [rewrite Hf; reflexivity |].
  split; [reflexivity |]. split; [| split].
  - apply loop_unrecognized; [exact Hsent |]. rewrite Hf. reflexivity.
  - rewrite loop_speed, Hsent, Hf. reflexivity.
  - apply loop_buffer.
Qed.

(** C10.  [setup] sets the Target Speed to 60 and it stays 60 through any
    run of frames none of which is speed-bearing.  A bare motion frame
    dispatched then, "%W" for one, leaves it at 60 and drives both
    channels at duty (60 / 10.0) * 22.5 = 135, with the directions of its
    action symbol. *)
Theorem default_speed hw rxs rx :
  Forall (fun rx => speed_bearing (string_of_list_ascii rx) = false) rxs ->
  has_sentinel (string_of_list_ascii rx) = true ->
  speed_bearing (string_of_list_ascii rx) = false ->
  let s := run rxs (setup hw) in
  let sym := action_symbol (string_of_list_ascii rx) in
  let out := outputs_of (loop rx s) in
  BLE_Change_SPEED (setup hw) = 60 /\
  BLE_Change_SPEED s = 60 /\
  BLE_Change_SPEED (loop rx s) = 60 /\
  motorSpeed 60 = Float32.of_Z 135 /\
  (sym = "L"%char -> out = driven LOW 135 LOW 135) /\
  (sym = "R"%char -> out = driven HIGH 135 HIGH 135) /\
  (sym = "W"%char -> out = driven HIGH 135 LOW 135) /\
  (sym = "S"%char -> out = driven LOW 135 HIGH 135).
Proof.
  intros Hall Hsent Hsb s sym out.
  destruct (run_idle rxs (setup hw) eq_refl Hall) as [Hb Hs].
  fold s in Hb, Hs. change (BLE_Change_SPEED (setup hw)) with 60 in Hs.
  assert (Hf : frame rx s = string_of_list_ascii rx)
    by (apply frame_empty_buffer, Hb).
  assert (Hs' : BLE_Change_SPEED (loop rx s) = 60)
    by (rewrite loop_bare; [exact Hs | rewrite Hf; assumption ..]).
  assert (Hout : out = table (action_of sym) 135 (outputs_of s)).
  { unfold out. rewrite (loop_table rx s) by (rewrite Hf; exact Hsent).
    rewrite Hs', Hf. reflexivity. }
  split; [reflexivity |]. split; [exact Hs |]. split; [exact Hs' |].
  split; [vm_compute; reflexivity |].
  repeat split; intros Hsym; rewrite Hsym in Hout; exact Hout.
Qed.

Lemma default_speed_witness :
  Forall (fun rx => speed_bearing (string_of_list_ascii rx) = false)
         [list_ascii_of_string "%S"; list_ascii_of_string "stop"; list_ascii_of_string "%+"] /\
  has_sentinel (string_of_list_ascii (list_ascii_of_string "%W")) = true /\
  speed_bearing (string_of_list_ascii (list_ascii_of_string "%W")) = false /\
  outputs_of (loop (list_ascii_of_string "%W")
                (run [list_ascii_of_string "%S"; list_ascii_of_string "stop";
                      list_ascii_of_string "%+"] (setup ∅)))
    = driven HIGH 135 LOW 135.
Proof.
  assert (Hall : Forall (fun rx => speed_bearing (string_of_list_ascii rx) = false)
         [list_ascii_of_string "%S"; list_ascii_of_string "stop"; list_ascii_of_string "%+"])
    by (repeat constructor).
  assert (Hsent : has_sentinel (string_of_list_ascii (list_ascii_of_string "%W")) = true)
    by (vm_compute; reflexivity).
  assert (Hsb : speed_bearing (string_of_list_ascii (list_ascii_of_string "%W")) = false)
    by (vm_compute; reflexivity).
  split; [exact Hall |]. split; [exact Hsent |]. split; [exact Hsb |].
  destruct (default_speed ∅ _ (list_ascii_of_string "%W") Hall Hsent Hsb)
    as (_ & _ & _ & _ & _ & _ & HW & _).
  apply HW. vm_compute. reflexivity.
Defined.

(** ** The pin map, the serial log and runs of passes *)

Lemma switch_cmd_pins cmd m s :
  pins (switch_cmd cmd m s) = pins_after (action_of cmd) (int_of_float m) (pins s).
Proof.
  unfold switch_cmd, action_of.
  destruct (Ascii.eqb cmd "+"); [reflexivity |].
  destruct (Ascii.eqb cmd "-"); [reflexivity |]. simpl orb. cbv iota.
  destruct (Ascii.eqb cmd "L"); [reflexivity |].
  destruct (Ascii.eqb cmd "R"); [reflexivity |].
  destruct (Ascii.eqb cmd "W"); [reflexivity |].
  destruct (Ascii.eqb cmd "S"); reflexivity.
Qed.

Lemma switch_cmd_serial cmd m s :
  serial_tx (switch_cmd cmd m s) =
    (serial_tx s ++ report (action_of cmd) (BLE_Change_SPEED s))%list.
Proof.
  unfold switch_cmd, action_of.
  destruct (Ascii.eqb cmd "+");
    [unfold seq, serial; simpl; rewrite <- app_assoc; reflexivity |].
  destruct (Ascii.eqb cmd "-");
    [unfold seq, serial; simpl; rewrite <- app_assoc; reflexivity |].
  simpl orb. cbv iota.
  destruct (Ascii.eqb cmd "L"); [simpl; rewrite app_nil_r; reflexivity |].
  destruct (Ascii.eqb cmd "R"); [simpl; rewrite app_nil_r; reflexivity |].
  destruct (Ascii.eqb cmd "W"); [simpl; rewrite app_nil_r; reflexivity |].
  destruct (Ascii.eqb cmd "S"); simpl; rewrite app_nil_r; reflexivity.
Qed.

Lemma loop_pins rx s :
  frame rx s <> "" ->
  pins (loop rx s) =
    pins_after (frame_action (frame rx s))
               (duty_of (BLE_Change_SPEED (loop rx s))) (pins s).
Proof.
  intros Hne. rewrite loop_speed. unfold loop, frame_action, action_symbol.
  unfold frame in *. set (s1 := read_serial rx s) in *.
  change (BLE_Change_SPEED s) with (BLE_Change_SPEED s1).
  change (pins s) with (pins s1).
  rewrite (nonempty_length _ Hne).
  unfold seq at 1 2. unfold interpret, has_sentinel. simpl G_Bluetooth_value.
  destruct (Ascii.eqb _ "%").
  - rewrite (parse_command_symbol _ 0 (BLE_Change_SPEED s1)).
    simpl BLE_Change_SPEED.
    destruct (parse_command _ _) as [speed cmd]. simpl.
    rewrite switch_cmd_pins. reflexivity.
  - reflexivity.
Qed.

Lemma loop_serial rx s :
  frame rx s <> "" ->
  serial_tx (loop rx s) =
    (serial_tx s ++ TxLine (frame rx s)
       :: report (frame_action (frame rx s)) (BLE_Change_SPEED (loop rx s)))%list.
Proof.
  intros Hne. rewrite loop_speed. unfold loop, frame_action, action_symbol.
  unfold frame in *. set (s1 := read_serial rx s) in *.
  change (BLE_Change_SPEED s) with (BLE_Change_SPEED s1).
  change (serial_tx s) with (serial_tx s1).
  rewrite (nonempty_length _ Hne).
  unfold seq at 1 2. unfold interpret, has_sentinel. simpl G_Bluetooth_value.
  destruct (Ascii.eqb _ "%").
  - rewrite (parse_command_symbol _ 0 (BLE_Change_SPEED s1)).
    simpl BLE_Change_SPEED.
    destruct (parse_command _ _) as [speed cmd]. simpl.
    rewrite switch_cmd_serial. simpl. rewrite <- app_assoc. reflexivity.
  - reflexivity.
Qed.

Lemma action_of_ack c :
  action_of c = SpeedAck <-> c = "+"%char \/ c = "-"%char.
Proof.
  unfold action_of.
  destruct (Ascii.eqb_spec c "+") as [-> | Hp]; [simpl; tauto |].
  destruct (Ascii.eqb_spec c "-") as [-> | Hm]; [simpl; tauto |].
  simpl orb. cbv iota.
  split; [| tauto].
  destruct (Ascii.eqb c "L"); [discriminate |].
  destruct (Ascii.eqb c "R"); [discriminate |].
  destruct (Ascii.eqb c "W"); [discriminate |].
  destruct (Ascii.eqb c "S"); discriminate.
Qed.

Lemma frame_action_ack f :
  frame_action f = SpeedAck <->
  has_sentinel f = true /\ (action_symbol f = "+"%char \/ action_symbol f = "-"%char).
Proof.
  unfold frame_action. destruct (has_sentinel f).
  - rewrite action_of_ack. tauto.
  - split; [discriminate | intros [H _]; discriminate].
Qed.

Lemma report_not_ack a speed : a <> SpeedAck -> report a speed = [].
Proof. destruct a; try reflexivity. congruence. Qed.

Lemma drive_pins_other ld lp rd rp hw (pin : Z) :
  pin <> 2 -> pin <> 4 -> pin <> 5 -> pin <> 6 ->
  drive_pins ld lp rd rp hw !! pin = hw !! pin.
Proof.
  intros H2 H4 H5 H6. unfold drive_pins.
  rewrite !lookup_insert_ne by congruence. reflexivity.
Qed.

(** X1.  A pass that dispatches a frame first echoes the frame as one
    line.  When the frame has the sentinel and its action symbol is '+'
    or '-', the text "Speed updated to: " and a line with the Target
    Speed after parsing follow; in every other case nothing else is
    sent. *)
Theorem serial_log rx s :
  frame rx s <> "" ->
  (has_sentinel (frame rx s) = true ->
   action_symbol (frame rx s) = "+"%char \/ action_symbol (frame rx s) = "-"%char ->
   serial_tx (loop rx s) =
     (serial_tx s ++ [TxLine (frame rx s); TxText "Speed updated to: ";
                      TxIntLine (BLE_Change_SPEED (loop rx s))])%list) /\
  (has_sentinel (frame rx s) = false \/
   (action_symbol (frame rx s) <> "+"%char /\ action_symbol (frame rx s) <> "-"%char) ->
   serial_tx (loop rx s) = (serial_tx s ++ [TxLine (frame rx s)])%list).
Proof.
  intros Hne. rewrite (loop_serial rx s Hne). split.
  - intros Hsent Hsym.
    assert (Ha : frame_action (frame rx s) = SpeedAck)
      by (apply frame_action_ack; auto).
    rewrite Ha. reflexivity.
  - intros Hno. rewrite report_not_ack; [reflexivity |].
    intros Ha. apply frame_action_ack in Ha as [Hsent Hsym].
    destruct Hno as [Hno | [Hp Hm]]; [congruence | tauto].
Qed.

Lemma serial_log_witness :
  frame (list_ascii_of_string "%75+") (setup ∅) <> "" /\
  serial_tx (loop (list_ascii_of_string "%75+") (setup ∅)) =
    [TxLine "%75+"; TxText "Speed updated to: "; TxIntLine 75].
Proof.
  assert (Hne : frame (list_ascii_of_string "%75+") (setup ∅) <> "")
    by (vm_compute; discriminate).
  split; [exact Hne |].
  destruct (serial_log (list_ascii_of_string "%75+") (setup ∅) Hne) as [Hack _].
  rewrite Hack.
  - vm_compute. reflexivity.
  - vm_compute. reflexivity.
  - left. vm_compute. reflexivity.
Defined.

(** X2.  Passes in which nothing is received change nothing: with an
    empty buffer and an empty receive queue, any number of passes leaves
    the Target Speed, every pin and the serial log as they were, so the
    motors keep their last command. *)
Theorem idle_passes n speed hw tx :
  run (repeat [] n) (idle speed hw tx) = idle speed hw tx.
Proof.
  induction n as [| n IH]; [reflexivity |].
  simpl repeat. unfold run in *. simpl fold_left.
  exact IH.
Qed.

Lemma loop_pins_other rx s (pin : Z) :
  pin <> 2 -> pin <> 4 -> pin <> 5 -> pin <> 6 ->
  pins (loop rx s) !! pin = pins s !! pin.
Proof.
  intros H2 H4 H5 H6.
  destruct (String.string_dec (frame rx s) "") as [Hemp | Hne].
  - rewrite (loop_no_frame rx s Hemp). reflexivity.
  - rewrite (loop_pins rx s Hne).
    destruct (frame_action (frame rx s)); simpl;
      try apply drive_pins_other; auto.
Qed.

(** X3.  No pass writes a pin other than 2, 4, 5 and 6. *)
Theorem other_pins_untouched rx s (pin : Z) :
  pin <> 2 -> pin <> 4 -> pin <> 5 -> pin <> 6 ->
  pins (loop rx s) !! pin = pins s !! pin.
Proof.
  intros H2 H4 H5 H6. apply loop_pins_other; assumption.
Qed.

Lemma other_pins_untouched_witness :
  pins (loop (list_ascii_of_string "%W") (setup {[ 13 := Digital HIGH ]})) !! 13
    = Some (Digital HIGH).
Proof.
  rewrite (other_pins_untouched (list_ascii_of_string "%W")
             (setup {[ 13 := Digital HIGH ]}) 13); [| lia | lia | lia | lia].
  vm_compute. reflexivity.
Defined.

(** X4.  A frame without the sentinel never changes the Target Speed,
    whatever digits it holds: the motors are stopped and the frame is
    echoed, nothing more. *)
Theorem no_sentinel_frame rx s :
  frame rx s <> "" ->
  has_sentinel (frame rx s) = false ->
  BLE_Change_SPEED (loop rx s) = BLE_Change_SPEED s /\
  outputs_of (loop rx s) = stop_configuration /\
  serial_tx (loop rx s) = (serial_tx s ++ [TxLine (frame rx s)])%list.
Proof.
  intros Hne Hsent. split; [| split].
  - rewrite loop_speed, Hsent. reflexivity.
  - rewrite (loop_outputs rx s Hne). unfold frame_action. rewrite Hsent. reflexivity.
  - rewrite (loop_serial rx s Hne). unfold frame_action. rewrite Hsent. reflexivity.
Qed.

Lemma no_sentinel_frame_witness :
  frame (list_ascii_of_string "75W") (setup ∅) <> "" /\
  has_sentinel (frame (list_ascii_of_string "75W") (setup ∅)) = false /\
  BLE_Change_SPEED (loop (list_ascii_of_string "75W") (setup ∅)) = 60 /\
  outputs_of (loop (list_ascii_of_string "75W") (setup ∅)) = stop_configuration.
Proof.
  assert (Hne : frame (list_ascii_of_string "75W") (setup ∅) <> "")
    by (vm_compute; discriminate).
  assert (Hsent : has_sentinel (frame (list_ascii_of_string "75W") (setup ∅)) = false)
    by (vm_compute; reflexivity).
  destruct (no_sentinel_frame (list_ascii_of_string "75W") (setup ∅) Hne Hsent)
    as (Hspeed & Hout & _).
  split; [exact Hne |]. split; [exact Hsent |]. split.
  - rewrite Hspeed. reflexivity.
  - exact Hout.
Defined.

(** X5.  A speed acknowledgement ('+' or '-' after the sentinel) leaves
    the whole pin map as it was. *)
Theorem ack_keeps_pins rx s :
  has_sentinel (frame rx s) = true ->
  action_symbol (frame rx s) = "+"%char \/ action_symbol (frame rx s) = "-"%char ->
  pins (loop rx s) = pins s.
Proof.
  intros Hsent Hsym.
  rewrite (loop_pins rx s (has_sentinel_nonempty _ Hsent)).
  assert (Ha : frame_action (frame rx s) = SpeedAck)
    by (apply frame_action_ack; auto).
  rewrite Ha. reflexivity.
Qed.

Lemma ack_keeps_pins_witness :
  has_sentinel (frame (list_ascii_of_string "%30-")
                  (loop (list_ascii_of_string "%W") (setup ∅))) = true /\
  pins (loop (list_ascii_of_string "%30-") (loop (list_ascii_of_string "%W") (setup ∅)))
    = pins (loop (list_ascii_of_string "%W") (setup ∅)).
Proof.
  assert (Hsent : has_sentinel (frame (list_ascii_of_string "%30-")
                  (loop (list_ascii_of_string "%W") (setup ∅))) = true)
    by (vm_compute; reflexivity).
  split; [exact Hsent |].
  apply (ack_keeps_pins _ _ Hsent). right. vm_compute. reflexivity.
Defined.

Lemma run_invariant (P : sketch -> Prop) :
  (forall rx s, P s -> P (loop rx s)) ->
  forall rxs s, P s -> P (run rxs s).
Proof.
  intros Hstep rxs. unfold run.
  induction rxs as [| rx rxs IH]; intros s Hs; simpl; [exact Hs |].
  apply IH, Hstep, Hs.
Qed.

Lemma parse_command_in_int f sp :
  Avr.in_int sp -> Avr.in_int (fst (parse_command f sp)).
Proof.
  intros Hsp. unfold parse_command.
  destruct (_ && _); simpl; [apply to_int_range | exact Hsp].
Qed.

Lemma loop_in_int rx s :
  Avr.in_int (BLE_Change_SPEED s) -> Avr.in_int (BLE_Change_SPEED (loop rx s)).
Proof.
  intros Hs. rewrite loop_speed.
  destruct (has_sentinel _); [apply parse_command_in_int, Hs | exact Hs].
Qed.

(** X6.  From [setup] on, after any number of passes whatever is
    received, the Command Buffer is empty and the Target Speed is a value
    of an [int], between -32768 and 32767. *)
Theorem reachable_state hw rxs :
  G_Bluetooth_value (run rxs (setup hw)) = "" /\
  Avr.INT_MIN <= BLE_Change_SPEED (run rxs (setup hw)) <= Avr.INT_MAX.
Proof.
  apply (run_invariant
           (fun s => G_Bluetooth_value s = "" /\ Avr.in_int (BLE_Change_SPEED s))).
  - intros rx s [_ Hs]. split; [apply loop_buffer | apply loop_in_int, Hs].
  - split; [reflexivity |]. unfold Avr.in_int, Avr.INT_MIN, Avr.INT_MAX. simpl. lia.
Qed.

(** X7.  Only speed-bearing frames change the Target Speed: through any
    run of passes none of which receives a speed-bearing frame, it keeps
    its value. *)
Theorem speed_persists rxs speed hw tx :
  Forall (fun rx => speed_bearing (string_of_list_ascii rx) = false) rxs ->
  BLE_Change_SPEED (run rxs (idle speed hw tx)) = speed.
Proof.
  intros Hall.
  destruct (run_idle rxs (idle speed hw tx) eq_refl Hall) as [_ Hs].
  exact Hs.
Qed.

Lemma speed_persists_witness :
  Forall (fun rx => speed_bearing (string_of_list_ascii rx) = false)
         [list_ascii_of_string "%W"; list_ascii_of_string "%S"; list_ascii_of_string "%W"] /\
  BLE_Change_SPEED
    (run [list_ascii_of_string "%W"; list_ascii_of_string "%S"; list_ascii_of_string "%W"]
         (idle 42 ∅ [])) = 42.
Proof.
  assert (Hall : Forall (fun rx => speed_bearing (string_of_list_ascii rx) = false)
         [list_ascii_of_string "%W"; list_ascii_of_string "%S"; list_ascii_of_string "%W"])
    by (repeat constructor).
  split; [exact Hall |].
  apply (speed_persists _ 42 ∅ [] Hall).
Defined.

(** X8.  The speed of a speed-bearing frame of at most 32767 characters
    carries over: a bare motion frame dispatched in the next pass drives
    both channels at the duty of the value the speed-bearing frame
    stored. *)
Theorem speed_carries_over rx1 rx2 speed hw tx :
  speed_bearing (string_of_list_ascii rx1) = true ->
  Z.of_nat (String.length (string_of_list_ascii rx1)) <= Avr.INT_MAX ->
  has_sentinel (string_of_list_ascii rx2) = true ->
  speed_bearing (string_of_list_ascii rx2) = false ->
  In (action_symbol (string_of_list_ascii rx2)) ["L"; "R"; "W"; "S"]%char ->
  let stored := Avr.to_int (decimal_value (numeric_part (string_of_list_ascii rx1))) in
  let s2 := loop rx2 (loop rx1 (idle speed hw tx)) in
  BLE_Change_SPEED s2 = stored /\
  left_duty (outputs_of s2) = Some (Analog (duty_of stored)) /\
  right_duty (outputs_of s2) = Some (Analog (duty_of stored)).
Proof.
  intros Hsb1 Hlen1 Hsent2 Hsb2 Hsym stored s2.
  set (s1 := loop rx1 (idle speed hw tx)) in *.
  assert (Hf1 : frame rx1 (idle speed hw tx) = string_of_list_ascii rx1)
    by apply frame_idle.
  assert (Hf2 : frame rx2 s1 = string_of_list_ascii rx2)
    by (apply frame_empty_buffer, loop_buffer).
  assert (Hs1 : BLE_Change_SPEED s1 = stored).
  { unfold s1. rewrite loop_speed_bearing by (rewrite Hf1; assumption).
    rewrite Hf1. reflexivity. }
  assert (Hs2 : BLE_Change_SPEED s2 = stored).
  { unfold s2. rewrite loop_bare by (rewrite Hf2; assumption). exact Hs1. }
  split; [exact Hs2 |].
  unfold s2 at 1 2. rewrite (loop_table rx2 s1) by (rewrite Hf2; exact Hsent2).
  fold s2. rewrite Hs2, Hf2. simpl in Hsym.
  destruct Hsym as [<- | [<- | [<- | [<- | []]]]]; split; reflexivity.
Qed.

Lemma speed_carries_over_witness :
  speed_bearing (string_of_list_ascii (list_ascii_of_string "%80+")) = true /\
  Z.of_nat (String.length (string_of_list_ascii (list_ascii_of_string "%80+")))
    <= Avr.INT_MAX /\
  left_duty (outputs_of (loop (list_ascii_of_string "%L")
                           (loop (list_ascii_of_string "%80+") (idle 60 ∅ []))))
    = Some (Analog 180).
Proof.
  assert (H1 : speed_bearing (string_of_list_ascii (list_ascii_of_string "%80+")) = true)
    by (vm_compute; reflexivity).
  assert (Hlen : Z.of_nat (String.length (string_of_list_ascii (list_ascii_of_string "%80+")))
                 <= Avr.INT_MAX)
    by (vm_compute; discriminate).
  assert (H2 : has_sentinel (string_of_list_ascii (list_ascii_of_string "%L")) = true)
    by (vm_compute; reflexivity).
  assert (H3 : speed_bearing (string_of_list_ascii (list_ascii_of_string "%L")) = false)
    by (vm_compute; reflexivity).
  assert (H4 : In (action_symbol (string_of_list_ascii (list_ascii_of_string "%L")))
                  ["L"; "R"; "W"; "S"]%char)
    by (vm_compute; tauto).
  split; [exact H1 |]. split; [exact Hlen |].
  destruct (speed_carries_over (list_ascii_of_string "%80+") (list_ascii_of_string "%L")
              60 ∅ [] H1 Hlen H2 H3 H4) as (_ & Hl & _).
  rewrite Hl. vm_compute. reflexivity.
Defined.

Lemma isDigit_unrecognized c : isDigit c = true -> recognized c = false.
Proof.
  intros Hc. unfold recognized. simpl existsb.
  destruct (Ascii.eqb_spec c "+") as [-> | _]; [vm_compute in Hc; discriminate |].
  destruct (Ascii.eqb_spec c "-") as [-> | _]; [vm_compute in Hc; discriminate |].
  destruct (Ascii.eqb_spec c "L") as [-> | _]; [vm_compute in Hc; discriminate |].
  destruct (Ascii.eqb_spec c "R") as [-> | _]; [vm_compute in Hc; discriminate |].
  destruct (Ascii.eqb_spec c "W") as [-> | _]; [vm_compute in Hc; discriminate |].
  destruct (Ascii.eqb_spec c "S") as [-> | _]; [vm_compute in Hc; discriminate |].
  reflexivity.
Qed.

Lemma table_memoryless a d o o' : a <> SpeedAck -> table a d o = table a d o'.
Proof. destruct a; try reflexivity. congruence. Qed.

(** X9.  The actuation is memoryless: unless the frame is a speed
    acknowledgement, the channel outputs after its dispatch do not depend
    on how the pins were driven before, and for a speed-bearing frame not
    on the earlier Target Speed either. *)
Theorem outputs_memoryless rx speed hw tx :
  string_of_list_ascii rx <> "" ->
  frame_action (string_of_list_ascii rx) <> SpeedAck ->
  (forall hw' tx',
     outputs_of (loop rx (idle speed hw' tx')) = outputs_of (loop rx (idle speed hw tx))) /\
  (speed_bearing (string_of_list_ascii rx) = true ->
   forall speed' hw' tx',
     outputs_of (loop rx (idle speed' hw' tx')) = outputs_of (loop rx (idle speed hw tx))).
Proof.
  intros Hne Hact.
  assert (Hout : forall sp h t,
            outputs_of (loop rx (idle sp h t)) =
            table (frame_action (string_of_list_ascii rx))
                  (duty_of (BLE_Change_SPEED (loop rx (idle sp h t)))) undriven).
  { intros sp h t.
    rewrite (loop_outputs rx (idle sp h t)) by (rewrite frame_idle; exact Hne).
    rewrite frame_idle. apply table_memoryless, Hact. }
  assert (Hsp : forall sp h t,
            BLE_Change_SPEED (loop rx (idle sp h t)) =
            if has_sentinel (string_of_list_ascii rx)
            then fst (parse_command (string_of_list_ascii rx) sp) else sp).
  { intros sp h t. rewrite loop_speed, frame_idle. reflexivity. }
  split.
  - intros hw' tx'. rewrite !Hout, !Hsp. reflexivity.
  - intros Hsb speed' hw' tx'. rewrite !Hout, !Hsp.
    pose proof (speed_bearing_sentinel _ Hsb) as Hsent. rewrite Hsent.
    destruct (parse_command_cases (string_of_list_ascii rx)) as [Hparsed | Hbare].
    + rewrite (Hparsed speed' speed). reflexivity.
    + assert (Hd : isDigit (WString.charAt (string_of_list_ascii rx) 1) = true).
      { unfold speed_bearing in Hsb. apply andb_true_iff in Hsb as [_ Hd]. exact Hd. }
      assert (Hstop : frame_action (string_of_list_ascii rx) = Stop).
      { unfold frame_action, action_symbol. rewrite Hsent, (Hbare 0).
        apply action_of_unrecognized, isDigit_unrecognized, Hd. }
      rewrite Hstop. reflexivity.
Qed.

Lemma outputs_memoryless_witness :
  string_of_list_ascii (list_ascii_of_string "%40R") <> "" /\
  frame_action (string_of_list_ascii (list_ascii_of_string "%40R")) <> SpeedAck /\
  outputs_of (loop (list_ascii_of_string "%40R")
                (idle 7 {[ 2 := Digital LOW; 5 := Analog 3 ]} []))
    = outputs_of (loop (list_ascii_of_string "%40R") (idle 60 ∅ [])).
Proof.
  assert (Hne : string_of_list_ascii (list_ascii_of_string "%40R") <> "")
    by (vm_compute; discriminate).
  assert (Hact : frame_action (string_of_list_ascii (list_ascii_of_string "%40R")) <> SpeedAck)
    by (vm_compute; discriminate).
  split; [exact Hne |]. split; [exact Hact |].
  destruct (outputs_memoryless (list_ascii_of_string "%40R") 60 ∅ [] Hne Hact) as [_ H].
  apply H. vm_compute. reflexivity.
Defined.

Lemma bare_symbol f :
  has_sentinel f = true -> speed_bearing f = false ->
  action_symbol f = WString.charAt f 1.
Proof.
  intros Hsent Hsb. unfold action_symbol.
  rewrite (parse_command_bare f 0 Hsent Hsb). reflexivity.
Qed.

(** X10.  In a frame with the sentinel and no digit at index 1, everything
    after index 1 is ignored: the pass leaves the same channel outputs and
    the same Target Speed as the two-character frame made of the sentinel
    and the character at index 1. *)
Theorem bare_tail_ignored rx speed hw tx :
  has_sentinel (string_of_list_ascii rx) = true ->
  isDigit (WString.charAt (string_of_list_ascii rx) 1) = false ->
  let short := ["%"%char; WString.charAt (string_of_list_ascii rx) 1] in
  outputs_of (loop rx (idle speed hw tx)) = outputs_of (loop short (idle speed hw tx)) /\
  BLE_Change_SPEED (loop rx (idle speed hw tx)) = speed /\
  BLE_Change_SPEED (loop short (idle speed hw tx)) = speed.
Proof.
  intros Hsent Hd short.
  set (f := string_of_list_ascii rx) in *.
  set (s := idle speed hw tx).
  assert (Hf : frame rx s = f) by apply frame_idle.
  assert (Hg : frame short s = String "%" (String (WString.charAt f 1) ""))
    by apply frame_idle.
  assert (Hsb : speed_bearing f = false) by (apply not_speed_bearing; right; exact Hd).
  assert (Hsent' : has_sentinel (frame short s) = true) by (rewrite Hg; reflexivity).
  assert (Hsb' : speed_bearing (frame short s) = false)
    by (apply not_speed_bearing; left; rewrite Hg; simpl; lia).
  assert (Hs : BLE_Change_SPEED (loop rx s) = speed)
    by (rewrite loop_bare; [reflexivity | rewrite Hf; assumption ..]).
  assert (Hs' : BLE_Change_SPEED (loop short s) = speed)
    by (rewrite loop_bare; [reflexivity | assumption ..]).
  split; [| split; assumption].
  rewrite (loop_table rx s) by (rewrite Hf; exact Hsent).
  rewrite (loop_table short s Hsent').
  rewrite Hs, Hs', Hf.
  rewrite (bare_symbol f Hsent Hsb), (bare_symbol _ Hsent' Hsb'), Hg.
  reflexivity.
Qed.

Lemma bare_tail_ignored_witness :
  has_sentinel (string_of_list_ascii (list_ascii_of_string "%W12 go")) = true /\
  isDigit (WString.charAt (string_of_list_ascii (list_ascii_of_string "%W12 go")) 1) = false /\
  outputs_of (loop (list_ascii_of_string "%W12 go") (idle 60 ∅ []))
    = driven HIGH 135 LOW 135.
Proof.
  assert (H1 : has_sentinel (string_of_list_ascii (list_ascii_of_string "%W12 go")) = true)
    by (vm_compute; reflexivity).
  assert (H2 : isDigit (WString.charAt (string_of_list_ascii (list_ascii_of_string "%W12 go")) 1) = false)
    by (vm_compute; reflexivity).
  split; [exact H1 |]. split; [exact H2 |].
  destruct (bare_tail_ignored (list_ascii_of_string "%W12 go") 60 ∅ [] H1 H2) as (Hout & _).
  rewrite Hout. vm_compute. reflexivity.
Defined.

(** X11.  A single digit after the sentinel is never a speed: the
    two-character frame made of '%' and a decimal digit leaves the Target
    Speed as it was and stops the motors. *)
Theorem lone_digit d speed hw tx :
  isDigit d = true ->
  BLE_Change_SPEED (loop ["%"%char; d] (idle speed hw tx)) = speed /\
  outputs_of (loop ["%"%char; d] (idle speed hw tx)) = stop_configuration.
Proof.
  intros Hd. set (s := idle speed hw tx).
  assert (Hf : frame ["%"%char; d] s = String "%" (String d "")) by apply frame_idle.
  assert (Hsent : has_sentinel (frame ["%"%char; d] s) = true) by (rewrite Hf; reflexivity).
  assert (Hsb : speed_bearing (frame ["%"%char; d] s) = false)
    by (apply not_speed_bearing; left; rewrite Hf; simpl; lia).
  split.
  - apply loop_bare; assumption.
  - apply loop_unrecognized; [exact Hsent |].
    rewrite (bare_symbol _ Hsent Hsb), Hf.
    apply isDigit_unrecognized, Hd.
Qed.

Lemma lone_digit_witness :
  isDigit "9" = true /\
  BLE_Change_SPEED (loop ["%"%char; "9"%char] (idle 60 ∅ [])) = 60 /\
  outputs_of (loop ["%"%char; "9"%char] (idle 60 ∅ [])) = stop_configuration.
Proof.
  assert (Hd : isDigit "9" = true) by (vm_compute; reflexivity).
  split; [exact Hd |].
  exact (lone_digit "9" 60 ∅ [] Hd).
Defined.

(** X12.  The Target Speed a speed-bearing frame of at most 32767
    characters stores is the [int] congruent modulo 65536 to the value of
    the leading digits of its numeric part. *)
Theorem stored_speed_congruent rx s :
  speed_bearing (frame rx s) = true ->
  Z.of_nat (String.length (frame rx s)) <= Avr.INT_MAX ->
  Avr.INT_MIN <= BLE_Change_SPEED (loop rx s) <= Avr.INT_MAX /\
  (BLE_Change_SPEED (loop rx s) - decimal_value (numeric_part (frame rx s)))
    mod 65536 = 0.
Proof.
  intros Hsb Hlen. rewrite (loop_speed_bearing rx s Hsb Hlen). split.
  - apply to_int_range.
  - unfold Avr.to_int.
    destruct (wrap_decompose 16 (decimal_value (numeric_part (frame rx s))))
      as [k Hk]; [lia |].
    rewrite Hk. change (2 ^ 16) with 65536.
    replace (decimal_value (numeric_part (frame rx s)) + k * 65536
             - decimal_value (numeric_part (frame rx s))) with (k * 65536) by lia.
    apply Z_mod_mult.
Qed.

Lemma stored_speed_congruent_witness :
  speed_bearing (frame (list_ascii_of_string "%65596W") (setup ∅)) = true /\
  Z.of_nat (String.length (frame (list_ascii_of_string "%65596W") (setup ∅)))
    <= Avr.INT_MAX /\
  (Avr.INT_MIN <= BLE_Change_SPEED (loop (list_ascii_of_string "%65596W") (setup ∅))
     <= Avr.INT_MAX /\
   (BLE_Change_SPEED (loop (list_ascii_of_string "%65596W") (setup ∅))
    - decimal_value (numeric_part (frame (list_ascii_of_string "%65596W") (setup ∅))))
     mod 65536 = 0).
Proof.
  assert (Hsb : speed_bearing (frame (list_ascii_of_string "%65596W") (setup ∅)) = true)
    by (vm_compute; reflexivity).
  assert (Hlen : Z.of_nat (String.length (frame (list_ascii_of_string "%65596W") (setup ∅)))
                 <= Avr.INT_MAX)
    by (vm_compute; discriminate).
  split; [exact Hsb |]. split; [exact Hlen |].
  exact (stored_speed_congruent (list_ascii_of_string "%65596W") (setup ∅) Hsb Hlen).
Defined.

Lemma duty_near_exact speed :
  0 <= speed <= 100 ->
  0 <= duty_of speed <= 225 /\ 9 * speed - 4 <= 4 * duty_of speed <= 9 * speed.
Proof.
  intros Hs.
  assert (H : forallb (fun z => (0 <=? duty_of z) && (duty_of z <=? 225)
                                && (9 * z - 4 <=? 4 * duty_of z)
                                && (4 * duty_of z <=? 9 * z))
                      (seqZ 0 101) = true)
    by (vm_compute; reflexivity).
  rewrite forallb_forall in H.
  assert (Hin : In speed (seqZ 0 101)) by (apply list_elem_of_In, elem_of_seqZ; lia).
  specialize (H speed Hin).
  apply andb_true_iff in H as [H H4]. apply andb_true_iff in H as [H H3].
  apply andb_true_iff in H as [H1 H2].
  apply Z.leb_le in H1. apply Z.leb_le in H2.
  apply Z.leb_le in H3. apply Z.leb_le in H4. lia.
Qed.

(** X13.  With a Target Speed in the conventional range 0 .. 100, a motion
    frame hands both duty pins the same value [d] with 0 <= d <= 225, and
    d is 9 * speed / 4 rounded down, or one below it:
    9 * speed - 4 <= 4 * d <= 9 * speed. *)
Theorem duty_in_pwm_range rx s :
  has_sentinel (frame rx s) = true ->
  In (action_symbol (frame rx s)) ["L"; "R"; "W"; "S"]%char ->
  0 <= BLE_Change_SPEED (loop rx s) <= 100 ->
  exists d,
    left_duty (outputs_of (loop rx s)) = Some (Analog d) /\
    right_duty (outputs_of (loop rx s)) = Some (Analog d) /\
    0 <= d <= 225 /\
    9 * BLE_Change_SPEED (loop rx s) - 4 <= 4 * d <= 9 * BLE_Change_SPEED (loop rx s).
Proof.
  intros Hsent Hsym Hrange.
  exists (duty_of (BLE_Change_SPEED (loop rx s))).
  destruct (duty_near_exact _ Hrange) as [Hd Hnear].
  rewrite (loop_table rx s Hsent). simpl in Hsym.
  destruct Hsym as [<- | [<- | [<- | [<- | []]]]]; repeat split; lia.
Qed.

Lemma duty_in_pwm_range_witness :
  has_sentinel (frame (list_ascii_of_string "%100W") (setup ∅)) = true /\
  In (action_symbol (frame (list_ascii_of_string "%100W") (setup ∅)))
     ["L"; "R"; "W"; "S"]%char /\
  0 <= BLE_Change_SPEED (loop (list_ascii_of_string "%100W") (setup ∅)) <= 100 /\
  exists d,
    left_duty (outputs_of (loop (list_ascii_of_string "%100W") (setup ∅)))
      = Some (Analog d) /\
    right_duty (outputs_of (loop (list_ascii_of_string "%100W") (setup ∅)))
      = Some (Analog d) /\
    0 <= d <= 225 /\
    9 * BLE_Change_SPEED (loop (list_ascii_of_string "%100W") (setup ∅)) - 4
      <= 4 * d <= 9 * BLE_Change_SPEED (loop (list_ascii_of_string "%100W") (setup ∅)).
Proof.
  assert (H1 : has_sentinel (frame (list_ascii_of_string "%100W") (setup ∅)) = true)
    by (vm_compute; reflexivity).
  assert (H2 : In (action_symbol (frame (list_ascii_of_string "%100W") (setup ∅)))
                  ["L"; "R"; "W"; "S"]%char)
    by (vm_compute; tauto).
  assert (H3 : 0 <= BLE_Change_SPEED (loop (list_ascii_of_string "%100W") (setup ∅)) <= 100)
    by (vm_compute; split; discriminate).
  split; [exact H1 |]. split; [exact H2 |]. split; [exact H3 |].
  exact (duty_in_pwm_range (list_ascii_of_string "%100W") (setup ∅) H1 H2 H3).
Defined.

Lemma loop_outputs_kind rx s :
  (outputs_of s = undriven \/
   exists ld lp rd rp, outputs_of s = driven ld lp rd rp) ->
  outputs_of (loop rx s) = undriven \/
  exists ld lp rd rp, outputs_of (loop rx s) = driven ld lp rd rp.
Proof.
  intros Hs.
  destruct (String.string_dec (frame rx s) "") as [Hemp | Hne].
  - rewrite (loop_no_frame rx s Hemp). exact Hs.
  - rewrite (loop_outputs rx s Hne).
    destruct (frame_action (frame rx s)); simpl;
      first [exact Hs | right; do 4 eexists; reflexivity].
Qed.

(** X14.  From power-on with no pin driven, after any number of passes
    the sketch has driven either none of its four outputs or all four of
    them, pins 2 and 4 with a level and pins 5 and 6 with a duty, and no
    other pin. *)
Theorem power_on_pins rxs :
  (outputs_of (run rxs (setup ∅)) = undriven \/
   exists ld lp rd rp, outputs_of (run rxs (setup ∅)) = driven ld lp rd rp) /\
  (forall pin : Z, pin <> 2 -> pin <> 4 -> pin <> 5 -> pin <> 6 ->
     pins (run rxs (setup ∅)) !! pin = None).
Proof.
  apply (run_invariant
           (fun s => (outputs_of s = undriven \/
                      exists ld lp rd rp, outputs_of s = driven ld lp rd rp) /\
                     (forall pin : Z, pin <> 2 -> pin <> 4 -> pin <> 5 -> pin <> 6 ->
                        pins s !! pin = None))).
  - intros rx s [Hout Hother]. split; [apply loop_outputs_kind, Hout |].
    intros pin H2 H4 H5 H6. rewrite loop_pins_other by assumption. auto.
  - split; [left; reflexivity | intros; apply lookup_empty].
Qed.

Lemma append_length (a b : string) :
  String.length (a ++ b) = (String.length a + String.length b)%nat.
Proof.
  induction a as [| c a IH]; [reflexivity |].
  rewrite append_cons. simpl. rewrite IH. reflexivity.
Qed.

Lemma string_of_list_ascii_length rx :
  String.length (string_of_list_ascii rx) = List.length rx.
Proof. induction rx as [| c rx IH]; simpl; [| rewrite IH]; reflexivity. Qed.

(** X15.  The drain loop appends the received bytes to the buffer in
    arrival order; every byte, NUL included, counts as one character of
    the frame, and what the buffer held before stays in front. *)
Theorem drained_frame rx s :
  frame rx s = G_Bluetooth_value s ++ string_of_list_ascii rx /\
  String.length (frame rx s) =
    (String.length (G_Bluetooth_value s) + List.length rx)%nat /\
  BLE_Change_SPEED (read_serial rx s) = BLE_Change_SPEED s /\
  pins (read_serial rx s) = pins s /\
  serial_tx (read_serial rx s) = serial_tx s.
Proof.
  assert (Hf : frame rx s = G_Bluetooth_value s ++ string_of_list_ascii rx)
    by (unfold frame, read_serial; simpl; apply read_serial_buffer).
  split; [exact Hf |]. split; [| repeat split].
  rewrite Hf, append_length, string_of_list_ascii_length. reflexivity.
Qed.
